(** * myblog.auth: registration, login, logout, identity preload, access guard

    A shallow embedding of [src/myblog/auth.py].  The view functions of the
    blueprint are written in a state-and-exception monad over a [world] that
    holds what the Python code reaches through Flask's context objects: the
    request-scoped database connection ([get_db()]), the [session] dict, the
    request-scoped namespace [g] and the queue of flashed messages. *)

From Stdlib Require Import ZArith Ascii String List Bool Lia.
From stdpp Require Import gmap strings list.

Local Open Scope string_scope.
Local Open Scope Z_scope.

(** ** The credential store *)

(** Modelled from the spec: the schema of the [user] table (myblog/schema.sql)
    is not part of the sources at hand; the spec gives a user as
    [{id: integer, unique; username: string, unique; password_hash}].  The
    queries of auth.py name the columns [id], [username] and [password]. *)
Record user_row : Type := UserRow {
  row_id : Z;
  row_username : string;
  row_password : string
}.

(** The SQL statements auth.py sends through [db.execute] / [db.commit]. *)
Inductive statement : Type :=
| SelectIdByUsername (username : string)  (* SELECT id FROM user WHERE username = ? *)
| SelectByUsername (username : string)    (* SELECT * FROM user WHERE username=? *)
| SelectById (user_id : Z)                (* SELECT * FROM user WHERE id=? *)
| InsertUser (username hash : string)     (* INSERT INTO user (username, password) VALUES (?, ?) *)
| Commit.                                 (* db.commit() *)

(** Modelled from the spec: [get_db] (myblog/db.py) is not part of the sources
    at hand; the spec describes it as the provider of a request-scoped
    connection to the store.  A connection sees its own uncommitted rows
    ([rows]); [durable] is the table as of the last commit; [seq] is the id
    the store hands to the next inserted row; [journal] records, oldest
    first, every statement the connection was asked to run. *)
Record connection : Type := Connection {
  rows : list user_row;
  durable : list user_row;
  seq : Z;
  journal : list statement
}.

(** ** Flask's context objects *)

Record request : Type := Request {
  method : string;
  form : gmap string string
}.

(** [session] is a dict; this module only ever stores the integer [user_id]
    in it.  [g_user] is the attribute [g.user]: [None] while the attribute
    has not been assigned, [Some None] once it holds Python's [None].
    [flashes] is the queue that [flash] appends to.  Flask keeps that queue
    inside the session dict, under a private key, until the template of the
    next rendered page drains it: [session] holds the keys the application
    stores, [flashes] the queue, and [session.clear()] empties both. *)
Record world : Type := World {
  db : connection;
  session : gmap string Z;
  g_user : option (option user_row);
  flashes : list string
}.

Definition set_db (c : connection) (w : world) : world :=
  World c (session w) (g_user w) (flashes w).
Definition set_session (s : gmap string Z) (w : world) : world :=
  World (db w) s (g_user w) (flashes w).
Definition set_g_user (u : option user_row) (w : world) : world :=
  World (db w) (session w) (Some u) (flashes w).
Definition add_flash (msg : string) (w : world) : world :=
  World (db w) (session w) (g_user w) (flashes w ++ [msg]).

Definition log (s : statement) (c : connection) : connection :=
  Connection (rows c) (durable c) (seq c) (journal c ++ [s]).

(** What a view function returns. *)
Inductive response : Type :=
| Redirect (location : string)        (* redirect(location) *)
| RenderTemplate (template : string). (* render_template(template) *)

(** ** Exceptions and the handler monad *)

Inductive exn : Type :=
| BadRequestKeyError (key : string)  (* request.form[key] with key missing *)
| IntegrityError (column : string)   (* UNIQUE constraint failed *)
| AttributeError (attr : string)     (* g.attr read before assignment *)
| TypeError.                         (* subscripting None *)

Inductive outcome (A : Type) : Type :=
| Return (a : A)
| Raise (e : exn).
Arguments Return {A} a.
Arguments Raise {A} e.

Definition M (A : Type) : Type := world -> outcome A * world.

Definition ret {A} (a : A) : M A := fun w => (Return a, w).
Definition raise {A} (e : exn) : M A := fun w => (Raise e, w).
Definition bind {A B} (m : M A) (k : A -> M B) : M B :=
  fun w => match m w with
           | (Return a, w') => k a w'
           | (Raise e, w') => (Raise e, w')
           end.

Notation "'let*' x := m 'in' k" := (bind m (fun x => k))
  (at level 10, x name, m at level 100, k at level 200,
   format "'[v' 'let*'  x  :=  m  'in' '/' k ']'").
Notation "m >> k" := (bind m (fun _ => k))
  (at level 100, k at level 200, right associativity).

(** ** Python helpers *)

(** [not s] for a string [s]: only the empty string is falsy. *)
Definition py_not (s : string) : bool := String.eqb s "".

(** [needle in hay] for strings. *)
Fixpoint contains (needle hay : string) : bool :=
  String.prefix needle hay ||
  match hay with
  | EmptyString => false
  | String _ rest => contains needle rest
  end.

(** ** Store operations *)

Definition by_username (username : string) (r : user_row) : bool :=
  String.eqb (row_username r) username.
Definition by_id (user_id : Z) (r : user_row) : bool :=
  Z.eqb (row_id r) user_id.

(** [fetchone()] on the rows a WHERE clause keeps: the first one, or [None]. *)
Definition user_by_username (username : string) (c : connection) : option user_row :=
  List.find (by_username username) (rows c).
Definition user_by_id (user_id : Z) (c : connection) : option user_row :=
  List.find (by_id user_id) (rows c).

(** [db.execute('SELECT id FROM user WHERE username = ?', (username,)).fetchone()] *)
Definition select_id_by_username (username : string) : M (option Z) :=
  fun w => (Return (option_map row_id (user_by_username username (db w))),
            set_db (log (SelectIdByUsername username) (db w)) w).

(** [db.execute('SELECT * FROM user WHERE username=?', (username,)).fetchone()] *)
Definition select_by_username (username : string) : M (option user_row) :=
  fun w => (Return (user_by_username username (db w)),
            set_db (log (SelectByUsername username) (db w)) w).

(** [get_db().execute('SELECT * FROM user WHERE id=?', (user_id,)).fetchone()] *)
Definition select_by_id (user_id : Z) : M (option user_row) :=
  fun w => (Return (user_by_id user_id (db w)),
            set_db (log (SelectById user_id) (db w)) w).

(** [db.execute('INSERT INTO user (username, password) VALUES (?, ?)', ...)]:
    the store assigns the id; a username already in the table violates the
    uniqueness constraint. *)
Definition insert_user (username hash : string) : M unit :=
  fun w =>
    let c := log (InsertUser username hash) (db w) in
    if existsb (by_username username) (rows c)
    then (Raise (IntegrityError "user.username"), set_db c w)
    else (Return tt,
          set_db (Connection (rows c ++ [UserRow (seq c) username hash])
                             (durable c) (seq c + 1) (journal c)) w).

(** [db.commit()] *)
Definition commit : M unit :=
  fun w =>
    let c := log Commit (db w) in
    (Return tt, set_db (Connection (rows c) (rows c) (seq c) (journal c)) w).

(** What the schema promises of the table: ids and usernames are unique,
    and every id in use is below the next id to be handed out. *)
Definition store_ok (c : connection) : Prop :=
  NoDup (map row_id (rows c))
  /\ NoDup (map row_username (rows c))
  /\ Forall (fun r => row_id r < seq c) (rows c).

(** The statements that only read. *)
Definition is_select (s : statement) : bool :=
  match s with
  | SelectIdByUsername _ | SelectByUsername _ | SelectById _ => true
  | InsertUser _ _ | Commit => false
  end.

(** [c'] holds the same table as [c]: the same rows, the same committed rows
    and the same next id. *)
Definition same_table (c c' : connection) : Prop :=
  rows c' = rows c /\ durable c' = durable c /\ seq c' = seq c.

(** ** Session, [g], flash and form access *)

(** [request.form[key]] *)
Definition form_getitem (req : request) (key : string) : M string :=
  match form req !! key with
  | Some v => ret v
  | None => raise (BadRequestKeyError key)
  end.

(** [session.get(key)] *)
Definition session_get (key : string) : M (option Z) :=
  fun w => (Return (session w !! key), w).

(** [session[key] = v] *)
Definition session_setitem (key : string) (v : Z) : M unit :=
  fun w => (Return tt, set_session (<[key := v]> (session w)) w).

(** [session.clear()]: the dict is emptied, the keys of the application and
    the queue of flashed messages alike. *)
Definition session_clear : M unit :=
  fun w => (Return tt, World (db w) ∅ (g_user w) []).

(** [g.user = u] *)
Definition g_set_user (u : option user_row) : M unit :=
  fun w => (Return tt, set_g_user u w).

(** reading [g.user] *)
Definition g_get_user : M (option user_row) :=
  fun w => match g_user w with
           | Some u => (Return u, w)
           | None => (Raise (AttributeError "user"), w)
           end.

(** [flash(message)]: one more message at the end of the queue. *)
Definition flash (message : string) : M unit :=
  fun w => (Return tt, add_flash message w).

(** Every [user_id] a session holds is the id of a row of the table. *)
Definition session_ok (w : world) : Prop :=
  forall user_id,
    session w !! "user_id" = Some user_id ->
    exists user, In user (rows (db w)) /\ row_id user = user_id.

Definition world_ok (w : world) : Prop :=
  store_ok (db w) /\ session_ok w.

(** What one request does to the table: it may append rows, and it leaves
    no insert uncommitted. *)
Definition appends_committed (w w' : world) : Prop :=
  (exists added, rows (db w') = (rows (db w) ++ added)%list)
  /\ (durable (db w) = rows (db w) -> durable (db w') = rows (db w')).

(** ** Fixtures

    The routes of the blueprint ([url_prefix='/auth'] plus the rule of each
    view) and the application root that tests/test_auth.py expects behind the
    [index] endpoint. *)
Definition blueprint_url_for (endpoint : string) : string :=
  if String.eqb endpoint "auth.register" then "/auth/register"
  else if String.eqb endpoint "auth.login" then "/auth/login"
  else if String.eqb endpoint "auth.logout" then "/auth/logout"
  else "/".

(** A stand-in for the hashing service, used only to run the handlers on
    concrete requests: the encoded hash is [salt$password] and checking
    compares what follows the first [$]. *)
Definition stub_generate_password_hash (salt password : string) : string :=
  salt ++ "$" ++ password.

Fixpoint after_dollar (s : string) : string :=
  match s with
  | EmptyString => EmptyString
  | String c rest => if Ascii.eqb c "$"%char then rest else after_dollar rest
  end.

Definition stub_check_password_hash (pwhash password : string) : bool :=
  String.eqb (after_dollar pwhash) password.

(** The store of the test suite: one user, [test] / [test], with id 1. *)
Definition test_connection : connection :=
  let table := [UserRow 1 "test" "s4lt$test"] in
  Connection table table 2 [].

Definition anonymous_world : world := World test_connection ∅ None [].
Definition logged_in_world : world :=
  World test_connection {["user_id" := 1]} None [].
(** A session whose user has since been removed from the store. *)
Definition stale_world : world :=
  World test_connection {["user_id" := 7]} None [].

Definition test_user : user_row := UserRow 1 "test" "s4lt$test".

Definition post (username password : string) : request :=
  Request "POST" (<["username" := username]> (<["password" := password]> ∅)).

(** The GET that fetches a form. *)
Definition get : request := Request "GET" ∅.

(** A view to put behind the guard: it leaves a visible trace when run. *)
Definition update_view (post_id : Z) : M response :=
  fun w => (Return (Redirect "/"),
            World (db w) (session w) (g_user w) (flashes w ++ ["updated"])).

(** ** The view functions of the blueprint *)

Section Auth.

(** [url_for] resolves an endpoint name through the application's routing
    table; [generate_password_hash] and [check_password_hash] are
    werkzeug.security's.  The salt that [generate_password_hash] draws at
    random is made an argument. *)
Variable url_for : string -> string.
Variable generate_password_hash : string -> string -> string.
Variable check_password_hash : string -> string -> bool.

(** [register], bound to /auth/register for GET and POST.  The POST block
    either returns (its [Some]) or falls through to the final
    [render_template]. *)
Definition register (salt : string) (req : request) : M response :=
  let* returned :=
    if String.eqb (method req) "POST" then
      let* username := form_getitem req "username" in
      let* password := form_getitem req "password" in
      let* error :=
        if py_not username then
          ret (Some "Username is required.")
        else if py_not password then
          ret (Some "Password is required.")
        else
          let* found := select_id_by_username username in
          match found with
          | Some _ => ret (Some ("User " ++ username ++ " is already registered."))
          | None => ret None
          end in
      match error with
      | None =>
          insert_user username (generate_password_hash salt password) >>
          commit >>
          ret (Some (Redirect (url_for "auth.login")))
      | Some message =>
          flash message >>
          ret None
      end
    else ret None in
  match returned with
  | Some resp => ret resp
  | None => ret (RenderTemplate "auth/register.html")
  end.

(** [login], bound to /auth/login for GET and POST. *)
Definition login (req : request) : M response :=
  let* returned :=
    if String.eqb (method req) "POST" then
      let* username := form_getitem req "username" in
      let* password := form_getitem req "password" in
      let* user := select_by_username username in
      let error :=
        match user with
        | None => Some "Incorrect username."
        | Some u =>
            if negb (check_password_hash (row_password u) password)
            then Some "Incorrect password."
            else None
        end in
      match error with
      | None =>
          session_clear >>
          (match user with
           | Some u => session_setitem "user_id" (row_id u)
           | None => raise TypeError
           end) >>
          ret (Some (Redirect (url_for "index")))
      | Some message =>
          flash message >>
          ret None
      end
    else ret None in
  match returned with
  | Some resp => ret resp
  | None => ret (RenderTemplate "auth/login.html")
  end.

(** [load_logged_in_user], registered with [before_app_request]. *)
Definition load_logged_in_user : M unit :=
  let* user_id := session_get "user_id" in
  match user_id with
  | None => g_set_user None
  | Some i =>
      let* user := select_by_id i in
      g_set_user user
  end.

(** [logout], bound to /auth/logout. *)
Definition logout : M response :=
  session_clear >>
  ret (Redirect (url_for "index")).

(** [login_required(view)]: the wrapped view, applied to its keyword
    arguments. *)
Definition login_required {K : Type} (view : K -> M response) : K -> M response :=
  fun kwargs =>
    let* user := g_get_user in
    match user with
    | None => ret (Redirect (url_for "auth.login"))
    | Some _ => view kwargs
    end.

(** [@bp.before_app_request] (auth.py, line 94) registers
    [load_logged_in_user] to run before the view function of every request,
    whatever the URL: a request is the preload followed by its view. *)
Definition with_preload {A : Type} (view : M A) : M A :=
  load_logged_in_user >> view.

(** The routes of the blueprint ([@bp.route]) and the request each one
    serves; [serve_all] is a history of requests on one client, the world
    after one request being the world before the next. *)
Inductive route : Type :=
| AuthRegister (salt : string) (req : request)  (* /auth/register *)
| AuthLogin (req : request)                     (* /auth/login *)
| AuthLogout.                                   (* /auth/logout *)

Definition serve (r : route) : M response :=
  with_preload
    match r with
    | AuthRegister salt req => register salt req
    | AuthLogin req => login req
    | AuthLogout => logout
    end.

Fixpoint serve_all (history : list route) (w : world) : world :=
  match history with
  | [] => w
  | r :: history' => serve_all history' (snd (serve r w))
  end.

(** ** Reasoning about the store *)

(** Runs a handler up to the point where both form fields are read. *)
Ltac read_form Hpost Hu Hp :=
  unfold bind, form_getitem; rewrite Hpost, Hu, Hp; simpl.

Lemma py_not_empty : py_not "" = true.
Proof. reflexivity. Qed.

Lemma py_not_nonempty (s : string) : s <> "" -> py_not s = false.
Proof. intros H. unfold py_not. now apply String.eqb_neq. Qed.

Lemma user_by_username_none (username : string) (c : connection) :
  user_by_username username c = None <->
  (forall r, In r (rows c) -> row_username r <> username).
Proof.
  unfold user_by_username, by_username. split.
  - intros H r Hin Heq.
    pose proof (find_none _ _ H r Hin) as Hf. simpl in Hf.
    apply String.eqb_neq in Hf. contradiction.
  - intros H. destruct (List.find _ _) as [r|] eqn:E; [|reflexivity].
    apply find_some in E as [Hin Heq].
    apply String.eqb_eq in Heq. exfalso. exact (H r Hin Heq).
Qed.

Lemma user_by_username_some (username : string) (c : connection) (r : user_row) :
  user_by_username username c = Some r ->
  In r (rows c) /\ row_username r = username.
Proof.
  unfold user_by_username, by_username. intros H.
  apply find_some in H as [Hin Heq]. split; [exact Hin|].
  now apply String.eqb_eq in Heq.
Qed.

Lemma user_by_username_present (username : string) (c : connection) :
  (exists r, In r (rows c) /\ row_username r = username) ->
  exists r', user_by_username username c = Some r'.
Proof.
  intros (r & Hin & Heq).
  destruct (user_by_username username c) as [r'|] eqn:E; [eauto|].
  exfalso. exact (proj1 (user_by_username_none _ _) E r Hin Heq).
Qed.

Lemma existsb_by_username (username : string) (c : connection) :
  existsb (by_username username) (rows c) = false <->
  user_by_username username c = None.
Proof.
  rewrite user_by_username_none. split.
  - intros H r Hin Heq.
    assert (existsb (by_username username) (rows c) = true) as Ht.
    { apply existsb_exists. exists r. split; [exact Hin|].
      unfold by_username. now apply String.eqb_eq. }
    congruence.
  - intros H. destruct (existsb _ _) eqn:E; [|reflexivity].
    apply existsb_exists in E as (r & Hin & Heq).
    apply String.eqb_eq in Heq. exfalso. exact (H r Hin Heq).
Qed.

Lemma user_by_id_none (user_id : Z) (c : connection) :
  user_by_id user_id c = None <->
  (forall r, In r (rows c) -> row_id r <> user_id).
Proof.
  unfold user_by_id, by_id. split.
  - intros H r Hin Heq.
    pose proof (find_none _ _ H r Hin) as Hf. simpl in Hf.
    apply Z.eqb_neq in Hf. contradiction.
  - intros H. destruct (List.find _ _) as [r|] eqn:E; [|reflexivity].
    apply find_some in E as [Hin Heq].
    apply Z.eqb_eq in Heq. exfalso. exact (H r Hin Heq).
Qed.

Lemma user_by_id_some (user_id : Z) (c : connection) (r : user_row) :
  user_by_id user_id c = Some r -> In r (rows c) /\ row_id r = user_id.
Proof.
  unfold user_by_id, by_id. intros H.
  apply find_some in H as [Hin Heq]. split; [exact Hin|].
  now apply Z.eqb_eq in Heq.
Qed.

Lemma find_by_username_last
    (table : list user_row) (user_id : Z) (username hash : string) :
  List.find (by_username username) table = None ->
  List.find (by_username username) (table ++ [UserRow user_id username hash]) =
    Some (UserRow user_id username hash).
Proof.
  induction table as [|x table IH]; simpl.
  - intros _. unfold by_username. simpl. now rewrite String.eqb_refl.
  - destruct (by_username username x); [discriminate|exact IH].
Qed.

(** With ids unique in the table, the lookup by id returns the one row
    that carries the id. *)
Lemma user_by_id_unique (user_id : Z) (c : connection) (r : user_row) :
  NoDup (map row_id (rows c)) -> In r (rows c) -> row_id r = user_id ->
  user_by_id user_id c = Some r.
Proof.
  unfold user_by_id. generalize (rows c) as table.
  induction table as [|x table IH]; simpl; intros Hnd Hin Heq; [contradiction|].
  inversion Hnd as [|y l Hnotin Hnd']; subst y l.
  unfold by_id at 1. destruct (Z.eqb_spec (row_id x) user_id) as [Hx|Hx].
  - destruct Hin as [->|Hin]; [reflexivity|].
    exfalso. apply Hnotin. rewrite Hx, <- Heq.
    apply list_elem_of_In. apply in_map. exact Hin.
  - destruct Hin as [->|Hin]; [contradiction|]. now apply IH.
Qed.

Lemma contains_skip (needle before hay : string) :
  contains needle hay = true -> contains needle (before ++ hay) = true.
Proof.
  intros H. induction before as [|c before IH]; [exact H|].
  change (contains needle (String c (before ++ hay)) = true).
  cbn [contains]. rewrite IH. apply orb_true_r.
Qed.

Lemma already_registered_message (username : string) :
  contains "already registered"
           ("User " ++ username ++ " is already registered.") = true.
Proof. do 2 apply contains_skip. reflexivity. Qed.

Lemma store_ok_ext (c c' : connection) :
  rows c' = rows c -> seq c' = seq c -> store_ok c -> store_ok c'.
Proof. unfold store_ok. intros -> ->. exact id. Qed.

Lemma store_ok_insert (c : connection) (username hash : string) :
  store_ok c ->
  user_by_username username c = None ->
  store_ok (Connection (rows c ++ [UserRow (seq c) username hash])
                       (durable c) (seq c + 1) (journal c)).
Proof.
  intros (Hids & Hnames & Hbelow) Hfree. unfold store_ok. simpl.
  rewrite !map_app. simpl. split; [|split].
  - apply NoDup_app. split; [exact Hids|]. split; [|apply NoDup_singleton].
    intros i Hi Hi'. apply list_elem_of_singleton in Hi'. subst i.
    apply list_elem_of_In, in_map_iff in Hi as (r & Hr & Hin).
    rewrite Forall_forall in Hbelow.
    apply list_elem_of_In, Hbelow in Hin. lia.
  - apply NoDup_app. split; [exact Hnames|]. split; [|apply NoDup_singleton].
    intros u Hu Hu'. apply list_elem_of_singleton in Hu'. subst u.
    apply list_elem_of_In, in_map_iff in Hu as (r & Hr & Hin).
    exact (proj1 (user_by_username_none _ _) Hfree r Hin Hr).
  - apply Forall_app. split.
    + eapply Forall_impl; [exact Hbelow|]. simpl. intros r Hr. lia.
    + apply Forall_singleton. simpl. lia.
Qed.

(** ** Registration *)

(** Whatever the request, [register] keeps the table within the schema. *)
Lemma register_store_ok (salt : string) (req : request) (w : world) :
  store_ok (db w) -> store_ok (db (snd (register salt req w))).
Proof.
  intros Hok. unfold register, bind, form_getitem.
  destruct (String.eqb (method req) "POST"); [|exact Hok].
  destruct (form req !! "username") as [username|]; [|exact Hok].
  destruct (form req !! "password") as [password|]; [|exact Hok]. simpl.
  destruct (py_not username); [exact Hok|].
  destruct (py_not password); [exact Hok|].
  unfold select_id_by_username.
  destruct (user_by_username username (db w)) as [r|] eqn:Hfound; [exact Hok|].
  simpl. unfold insert_user. simpl.
  replace (existsb (by_username username) (rows (db w))) with false
    by (symmetry; now apply (existsb_by_username username (db w))).
  simpl.
  eapply store_ok_ext;
    [| |exact (store_ok_insert (db w) username
                 (generate_password_hash salt password) Hok Hfound)];
    reflexivity.
Qed.

(** C1.  A POST to [register] checks, in this order, that the username is
    not empty, that the password is not empty, and that no row of the store
    carries the username.  The first check that fails decides: the handler
    flashes 'Username is required.', 'Password is required.' or
    'User <username> is already registered.' (which contains 'already
    registered') and returns the registration form.  The store is not even
    queried when one of the first two checks fails, and on the third the
    only statement sent is the SELECT: rows, committed rows and the id
    sequence are as before, no INSERT and no commit. *)
Theorem register_validation_order
    (salt : string) (req : request) (w : world) (username password : string) :
  method req = "POST" ->
  form req !! "username" = Some username ->
  form req !! "password" = Some password ->
  (username = "" ->
     register salt req w =
       (Return (RenderTemplate "auth/register.html"),
        add_flash "Username is required." w))
  /\ (username <> "" -> password = "" ->
     register salt req w =
       (Return (RenderTemplate "auth/register.html"),
        add_flash "Password is required." w))
  /\ (username <> "" -> password <> "" ->
      (exists r, In r (rows (db w)) /\ row_username r = username) ->
      register salt req w =
        (Return (RenderTemplate "auth/register.html"),
         add_flash ("User " ++ username ++ " is already registered.")
           (set_db (log (SelectIdByUsername username) (db w)) w))
      /\ contains "already registered"
           ("User " ++ username ++ " is already registered.") = true).
Proof.
  intros Hpost Hu Hp. unfold register. read_form Hpost Hu Hp.
  split; [|split].
  - intros ->. reflexivity.
  - intros Hne ->. rewrite (py_not_nonempty _ Hne). reflexivity.
  - intros Hne Hpne Hex. split; [|apply already_registered_message].
    rewrite (py_not_nonempty _ Hne), (py_not_nonempty _ Hpne).
    apply user_by_username_present in Hex as [r' Hr'].
    unfold select_id_by_username. rewrite Hr'. reflexivity.
Qed.

(** The successful run of [register], statement by statement. *)
Lemma register_success
    (salt : string) (req : request) (w : world) (username password : string) :
  method req = "POST" ->
  form req !! "username" = Some username ->
  form req !! "password" = Some password ->
  username <> "" ->
  password <> "" ->
  user_by_username username (db w) = None ->
  let hash := generate_password_hash salt password in
  let new := UserRow (seq (db w)) username hash in
  register salt req w =
    (Return (Redirect (url_for "auth.login")),
     set_db (Connection (rows (db w) ++ [new]) (rows (db w) ++ [new])
                        (seq (db w) + 1)
                        (journal (db w) ++ [SelectIdByUsername username;
                                            InsertUser username hash;
                                            Commit])) w).
Proof.
  intros Hpost Hu Hp Hne Hpne Hfree hash new.
  unfold register. read_form Hpost Hu Hp.
  rewrite (py_not_nonempty _ Hne), (py_not_nonempty _ Hpne).
  unfold select_id_by_username. rewrite Hfree. simpl.
  unfold insert_user. simpl.
  apply existsb_by_username in Hfree. rewrite Hfree. simpl.
  unfold set_db. simpl. rewrite <- !app_assoc. reflexivity.
Qed.

(** X4.  A POST to [register] with a non-empty username, a non-empty
    password and a username that no row of the store carries adds exactly
    one row to the table: it gets the next id, its username is the submitted
    one and its password column holds what [generate_password_hash] returned
    for the submitted password.  The
    insert is committed ([durable] is the new table), the statements sent
    are the SELECT, the INSERT and the commit, session, [g.user] and flashes
    are left alone, and the handler redirects to the [auth.login]
    endpoint. *)
Theorem register_inserts_hashed_row
    (salt : string) (req : request) (w : world) (username password : string) :
  method req = "POST" ->
  form req !! "username" = Some username ->
  form req !! "password" = Some password ->
  username <> "" ->
  password <> "" ->
  (forall r, In r (rows (db w)) -> row_username r <> username) ->
  let hash := generate_password_hash salt password in
  let new := UserRow (seq (db w)) username hash in
  register salt req w =
    (Return (Redirect (url_for "auth.login")),
     World (Connection (rows (db w) ++ [new]) (rows (db w) ++ [new])
                       (seq (db w) + 1)
                       (journal (db w) ++ [SelectIdByUsername username;
                                           InsertUser username hash;
                                           Commit]))
           (session w) (g_user w) (flashes w)).
Proof.
  intros Hpost Hu Hp Hne Hpne Hfree hash new.
  apply user_by_username_none in Hfree.
  now apply register_success.
Qed.

(** ** Login *)

(** C2.  A POST to [login]: when no row is found for the submitted
    username, exactly the message 'Incorrect username.' is flashed; when a
    row is found and the submitted password does not verify against its
    stored hash, exactly 'Incorrect password.' is flashed.  In both cases
    the login form is returned and the session is the one the request came
    with: no [user_id] is set. *)
Theorem login_rejects
    (req : request) (w : world) (username password : string) :
  method req = "POST" ->
  form req !! "username" = Some username ->
  form req !! "password" = Some password ->
  ((forall r, In r (rows (db w)) -> row_username r <> username) ->
     login req w =
       (Return (RenderTemplate "auth/login.html"),
        add_flash "Incorrect username."
          (set_db (log (SelectByUsername username) (db w)) w))
     /\ session (snd (login req w)) = session w)
  /\ (forall user,
        user_by_username username (db w) = Some user ->
        check_password_hash (row_password user) password = false ->
        login req w =
          (Return (RenderTemplate "auth/login.html"),
           add_flash "Incorrect password."
             (set_db (log (SelectByUsername username) (db w)) w))
        /\ session (snd (login req w)) = session w).
Proof.
  intros Hpost Hu Hp. unfold login. read_form Hpost Hu Hp.
  unfold select_by_username. split.
  - intros Hnone. apply user_by_username_none in Hnone.
    rewrite Hnone. split; reflexivity.
  - intros user Hfound Hcheck. rewrite Hfound, Hcheck. split; reflexivity.
Qed.

(** C4.  A POST to [login] whose username is found in the store and whose
    password verifies against the stored hash of that row clears the
    session and then stores the row's id under [user_id]: afterwards the
    session is exactly [{user_id: id}], whatever it held before, the queue
    of flashed messages that was kept in it is empty, and the handler
    redirects to the [index] endpoint. *)
Theorem login_success
    (req : request) (w : world) (username password : string) (user : user_row) :
  method req = "POST" ->
  form req !! "username" = Some username ->
  form req !! "password" = Some password ->
  user_by_username username (db w) = Some user ->
  check_password_hash (row_password user) password = true ->
  login req w =
    (Return (Redirect (url_for "index")),
     World (log (SelectByUsername username) (db w))
           {["user_id" := row_id user]} (g_user w) [])
  /\ session (snd (login req w)) !! "user_id" = Some (row_id user)
  /\ (forall key, key <> "user_id" -> session (snd (login req w)) !! key = None)
  /\ flashes (snd (login req w)) = [].
Proof.
  intros Hpost Hu Hp Hfound Hcheck.
  assert (login req w =
    (Return (Redirect (url_for "index")),
     World (log (SelectByUsername username) (db w))
           {["user_id" := row_id user]} (g_user w) [])) as Heq.
  { unfold login. read_form Hpost Hu Hp. unfold select_by_username.
    rewrite Hfound, Hcheck. simpl.
    unfold set_session. simpl. rewrite insert_empty. reflexivity. }
  rewrite Heq. simpl. split; [reflexivity|]. split; [|split].
  - apply lookup_singleton_eq.
  - intros key Hkey. now apply lookup_singleton_ne.
  - reflexivity.
Qed.

(** C9.  A POST to [register] or [login] whose form has no [username]
    key, or no [password] key, raises the missing-key error of
    [request.form[...]] for the first key that is absent.  Nothing has run
    before it: the world is returned as it was, so nothing is flashed
    (neither 'Username is required.' nor 'Password is required.'), no
    statement reaches the store and the session is untouched. *)
Theorem missing_form_key_raises
    (salt : string) (req : request) (w : world) :
  method req = "POST" ->
  form req !! "username" = None \/ form req !! "password" = None ->
  exists key,
    (key = "username" \/ key = "password")
    /\ form req !! key = None
    /\ register salt req w = (Raise (BadRequestKeyError key), w)
    /\ login req w = (Raise (BadRequestKeyError key), w).
Proof.
  intros Hpost Hmissing. unfold register, login, bind, form_getitem.
  rewrite Hpost. simpl.
  destruct (form req !! "username") as [username|] eqn:Hu.
  - destruct Hmissing as [Hm|Hm]; [discriminate|].
    exists "password". rewrite Hm. simpl. auto.
  - exists "username". simpl. auto.
Qed.

(** ** Identity preload *)

(** C6.  [load_logged_in_user] never raises.  With no [user_id] in the
    session it sets [g.user] to [None]; with a [user_id] that no row of the
    store carries it sets [g.user] to [None] as well; with a [user_id] that
    a row carries (ids being unique in the table) it sets [g.user] to that
    row. *)
Theorem load_logged_in_user_identity (w : world) :
  (session w !! "user_id" = None ->
     load_logged_in_user w = (Return tt, set_g_user None w))
  /\ (forall user_id,
        session w !! "user_id" = Some user_id ->
        (forall r, In r (rows (db w)) -> row_id r <> user_id) ->
        load_logged_in_user w =
          (Return tt,
           set_g_user None (set_db (log (SelectById user_id) (db w)) w)))
  /\ (forall user_id user,
        session w !! "user_id" = Some user_id ->
        NoDup (map row_id (rows (db w))) ->
        In user (rows (db w)) ->
        row_id user = user_id ->
        load_logged_in_user w =
          (Return tt,
           set_g_user (Some user)
             (set_db (log (SelectById user_id) (db w)) w))).
Proof.
  unfold load_logged_in_user, bind, session_get, select_by_id, g_set_user.
  split; [|split].
  - intros ->. reflexivity.
  - intros user_id -> Hnone. apply user_by_id_none in Hnone.
    rewrite Hnone. reflexivity.
  - intros user_id user -> Hnd Hin Hid.
    rewrite (user_by_id_unique _ _ _ Hnd Hin Hid). reflexivity.
Qed.

(** C10.  After [load_logged_in_user] the attribute [g.user] is assigned,
    whatever the world was.  When it holds a row, that row is one of the
    rows of the table, all columns included (so its [password] column is
    the stored hash), and its id is the session's [user_id].  When the
    session has no [user_id], the connection is left as it was: no
    statement is sent to the store. *)
Theorem load_logged_in_user_assigns (w : world) :
  let w' := snd (load_logged_in_user w) in
  fst (load_logged_in_user w) = Return tt
  /\ (exists identity, g_user w' = Some identity)
  /\ (forall user,
        g_user w' = Some (Some user) ->
        In user (rows (db w))
        /\ session w !! "user_id" = Some (row_id user)
        /\ In (row_password user) (map row_password (rows (db w))))
  /\ (session w !! "user_id" = None ->
        g_user w' = Some None /\ db w' = db w).
Proof.
  unfold load_logged_in_user, bind, session_get, select_by_id, g_set_user.
  destruct (session w !! "user_id") as [user_id|] eqn:Hs; simpl.
  - split; [reflexivity|]. split; [eauto|]. split; [|discriminate].
    intros user Huser. injection Huser as Huser.
    apply user_by_id_some in Huser as [Hin Hid].
    split; [exact Hin|]. split; [now rewrite Hid|]. now apply in_map.
  - split; [reflexivity|]. split; [eauto|]. split; [discriminate|].
    intros _. split; reflexivity.
Qed.

(** ** Logout *)

(** C7.  [logout] never raises: from every world it returns the redirect
    to the [index] endpoint and leaves the session empty, the keys of the
    application and the queue of flashed messages alike, the rest of the
    world as it was.  On a world whose session is already empty it changes
    nothing, and running it a second time gives what the first run gave. *)
Theorem logout_clears_session (w : world) :
  logout w =
    (Return (Redirect (url_for "index")), World (db w) ∅ (g_user w) [])
  /\ (session w = ∅ -> flashes w = [] ->
        logout w = (Return (Redirect (url_for "index")), w))
  /\ logout (snd (logout w)) = logout w.
Proof.
  unfold logout, bind, session_clear, ret. simpl.
  split; [reflexivity|]. split; [|reflexivity].
  intros Hsession Hflashes. destruct w as [c s g f]. simpl in *.
  now subst s f.
Qed.

(** ** Access guard *)

(** C5.  For every view and every keyword arguments: when [g.user] is
    [None] the wrapped view returns the redirect to the [auth.login]
    endpoint and the world is as before, whatever the view would have done
    (the view is not run); when [g.user] holds a user the wrapped view is
    the view applied to the same arguments, result and effects alike. *)
Theorem login_required_guard
    {K : Type} (view : K -> M response) (kwargs : K) (w : world) :
  (g_user w = Some None ->
     login_required view kwargs w =
       (Return (Redirect (url_for "auth.login")), w))
  /\ (forall user,
        g_user w = Some (Some user) ->
        login_required view kwargs w = view kwargs w).
Proof.
  unfold login_required, bind, g_get_user. split.
  - intros ->. reflexivity.
  - intros user ->. reflexivity.
Qed.

(** ** From one request to the next *)

(** X9.  A user who has just registered can log in with the same form, as long as
    the hashing service accepts the password it has just hashed. *)
Lemma register_then_login
    (salt : string) (req : request) (w : world) (username password : string) :
  method req = "POST" ->
  form req !! "username" = Some username ->
  form req !! "password" = Some password ->
  username <> "" ->
  password <> "" ->
  user_by_username username (db w) = None ->
  check_password_hash (generate_password_hash salt password) password = true ->
  let w1 := snd (register salt req w) in
  fst (login req w1) = Return (Redirect (url_for "index"))
  /\ session (snd (login req w1)) = {["user_id" := seq (db w)]}.
Proof.
  intros Hpost Hu Hp Hne Hpne Hfree Hcheck w1. subst w1.
  rewrite (register_success salt req w username password) by assumption.
  unfold login. read_form Hpost Hu Hp.
  unfold select_by_username, user_by_username. simpl.
  rewrite find_by_username_last by exact Hfree. simpl.
  rewrite Hcheck. simpl. rewrite insert_empty. split; reflexivity.
Qed.

(** X10.  After a successful login the preload of the next request resolves the
    identity to the user who logged in. *)
Lemma login_then_preload
    (req : request) (w : world) (username password : string) (user : user_row) :
  method req = "POST" ->
  form req !! "username" = Some username ->
  form req !! "password" = Some password ->
  NoDup (map row_id (rows (db w))) ->
  user_by_username username (db w) = Some user ->
  check_password_hash (row_password user) password = true ->
  g_user (snd (load_logged_in_user (snd (login req w)))) = Some (Some user).
Proof.
  intros Hpost Hu Hp Hids Hfound Hcheck.
  unfold login. read_form Hpost Hu Hp. unfold select_by_username.
  rewrite Hfound, Hcheck. simpl.
  unfold load_logged_in_user, bind, session_get. simpl.
  rewrite lookup_insert_eq. unfold select_by_id. simpl.
  apply user_by_username_some in Hfound as [Hin _].
  rewrite (user_by_id_unique (row_id user) _ user); [reflexivity| | |];
    simpl; auto.
Qed.

(** X11.  After [logout] the preload of the next request finds no identity. *)
Lemma logout_then_preload (w : world) :
  session (snd (logout w)) !! "user_id" = None
  /\ g_user (snd (load_logged_in_user (snd (logout w)))) = Some None.
Proof.
  unfold logout, load_logged_in_user, bind, session_clear, session_get. simpl.
  rewrite lookup_empty. split; reflexivity.
Qed.

(** ** The paths around the POST block *)

(** X1.  A request whose method is not POST (the GET that fetches the form) gets
    the form of the view back and changes nothing; the form data is not read,
    so missing keys do not raise here. *)
Theorem non_post_renders_form (salt : string) (req : request) (w : world) :
  method req <> "POST" ->
  register salt req w = (Return (RenderTemplate "auth/register.html"), w)
  /\ login req w = (Return (RenderTemplate "auth/login.html"), w).
Proof.
  intros Hget. apply String.eqb_neq in Hget.
  unfold register, login, bind. rewrite Hget. split; reflexivity.
Qed.

(** ** What the handlers write *)

(** X5.  Registering does not log anyone in: whatever the request, [register]
    leaves the session and [g.user] as they were, and flashes at most one
    message. *)
Theorem register_leaves_session (salt : string) (req : request) (w : world) :
  let w' := snd (register salt req w) in
  session w' = session w
  /\ g_user w' = g_user w
  /\ (flashes w' = flashes w
      \/ exists message, flashes w' = (flashes w ++ [message])%list).
Proof.
  unfold register, bind, form_getitem.
  destruct (String.eqb (method req) "POST"); [|simpl; auto].
  destruct (form req !! "username") as [username|]; [|simpl; auto].
  destruct (form req !! "password") as [password|]; [|simpl; auto].
  simpl.
  destruct (py_not username); [simpl; eauto|].
  destruct (py_not password); [simpl; eauto|].
  unfold select_id_by_username.
  destruct (user_by_username username (db w)) eqn:Hfound; [simpl; eauto|].
  simpl. unfold insert_user. simpl.
  apply existsb_by_username in Hfound. rewrite Hfound. simpl. auto.
Qed.

(** X6.  [login], [logout] and [load_logged_in_user] only read the store: after
    any of them the table is the one before, and what they have added to the
    journal of the connection is SELECT statements only. *)
Theorem readers_never_write (req : request) (w : world) :
  let reads (w' : world) :=
    same_table (db w) (db w')
    /\ exists sent, journal (db w') = (journal (db w) ++ sent)%list
                    /\ forallb is_select sent = true in
  reads (snd (login req w))
  /\ reads (snd (logout w))
  /\ reads (snd (load_logged_in_user w)).
Proof.
  assert (forall c : connection, journal c = (journal c ++ [])%list) as Hnil
    by (intros c; now rewrite app_nil_r).
  unfold same_table. split; [|split].
  - unfold login, bind, form_getitem.
    destruct (String.eqb (method req) "POST"); [|simpl; eauto 10].
    destruct (form req !! "username") as [username|]; [|simpl; eauto 10].
    destruct (form req !! "password") as [password|]; [|simpl; eauto 10].
    simpl. unfold select_by_username.
    destruct (user_by_username username (db w)) as [user|]; simpl.
    + destruct (check_password_hash (row_password user) password); simpl;
        (split; [auto|]); exists [SelectByUsername username]; auto.
    + split; [auto|]. exists [SelectByUsername username]. auto.
  - simpl. eauto 10.
  - unfold load_logged_in_user, bind, session_get, select_by_id.
    destruct (session w !! "user_id") as [user_id|]; simpl; [|eauto 10].
    split; [auto|]. exists [SelectById user_id]. auto.
Qed.

(** X7.  [login] changes the session only for verified credentials: after any
    request either the session is the one before, or it is exactly
    [{user_id: id}] for a row of the table that carries the submitted
    username and whose stored hash accepts the submitted password. *)
Theorem login_sets_session_only_when_verified (req : request) (w : world) :
  session (snd (login req w)) = session w
  \/ exists user username password,
       form req !! "username" = Some username
       /\ form req !! "password" = Some password
       /\ In user (rows (db w))
       /\ row_username user = username
       /\ check_password_hash (row_password user) password = true
       /\ session (snd (login req w)) = {["user_id" := row_id user]}
       /\ fst (login req w) = Return (Redirect (url_for "index")).
Proof.
  unfold login, bind, form_getitem.
  destruct (String.eqb (method req) "POST"); [|left; reflexivity].
  destruct (form req !! "username") as [username|] eqn:Hu; [|left; reflexivity].
  destruct (form req !! "password") as [password|] eqn:Hp; [|left; reflexivity].
  simpl. unfold select_by_username.
  destruct (user_by_username username (db w)) as [user|] eqn:Hfound;
    [|left; reflexivity].
  destruct (check_password_hash (row_password user) password) eqn:Hcheck;
    [|left; reflexivity].
  right. exists user, username, password.
  apply user_by_username_some in Hfound as [Hin Hname].
  simpl. rewrite insert_empty. auto 10.
Qed.

(** X8.  Registering the same form a second time is refused: after a successful
    registration the username is taken, so the second POST, whatever salt it
    draws, flashes the already-registered message and leaves the table with
    the one row the first POST added. *)
Theorem register_twice
    (salt salt' : string) (req : request) (w : world) (username password : string) :
  method req = "POST" ->
  form req !! "username" = Some username ->
  form req !! "password" = Some password ->
  username <> "" ->
  password <> "" ->
  user_by_username username (db w) = None ->
  let w1 := snd (register salt req w) in
  register salt' req w1 =
    (Return (RenderTemplate "auth/register.html"),
     add_flash ("User " ++ username ++ " is already registered.")
       (set_db (log (SelectIdByUsername username) (db w1)) w1))
  /\ rows (db (snd (register salt' req w1))) =
       (rows (db w) ++ [UserRow (seq (db w)) username
                                (generate_password_hash salt password)])%list.
Proof.
  intros Hpost Hu Hp Hne Hpne Hfree w1.
  pose (new := UserRow (seq (db w)) username
                       (generate_password_hash salt password)).
  assert (rows (db w1) = (rows (db w) ++ [new])%list) as Hrows.
  { unfold w1.
    rewrite (register_success salt req w username password) by assumption.
    reflexivity. }
  assert (user_by_username username (db w1) = Some new) as Htaken.
  { unfold user_by_username. rewrite Hrows.
    now apply find_by_username_last. }
  clearbody w1.
  assert (register salt' req w1 =
    (Return (RenderTemplate "auth/register.html"),
     add_flash ("User " ++ username ++ " is already registered.")
       (set_db (log (SelectIdByUsername username) (db w1)) w1))) as Hrun.
  { unfold register. read_form Hpost Hu Hp.
    rewrite (py_not_nonempty _ Hne), (py_not_nonempty _ Hpne).
    unfold select_id_by_username. rewrite Htaken. reflexivity. }
  rewrite Hrun. split; [reflexivity|exact Hrows].
Qed.

(** ** Guarded views behind the preload *)

(** X12.  A request to a guarded view, preload first.  Without a [user_id] in the
    session, or with one that no longer resolves to a row, the answer is the
    redirect to [auth.login] and the view is not run; with a [user_id] that
    resolves, the view runs with [g.user] holding that row.  The guard never
    finds [g.user] unassigned. *)
Theorem guarded_request
    {K : Type} (view : K -> M response) (kwargs : K) (w : world) :
  (session w !! "user_id" = None ->
     with_preload (login_required view kwargs) w =
       (Return (Redirect (url_for "auth.login")), set_g_user None w))
  /\ (forall user_id,
        session w !! "user_id" = Some user_id ->
        user_by_id user_id (db w) = None ->
        with_preload (login_required view kwargs) w =
          (Return (Redirect (url_for "auth.login")),
           set_g_user None (set_db (log (SelectById user_id) (db w)) w)))
  /\ (forall user_id user,
        session w !! "user_id" = Some user_id ->
        user_by_id user_id (db w) = Some user ->
        with_preload (login_required view kwargs) w =
          view kwargs
            (set_g_user (Some user)
               (set_db (log (SelectById user_id) (db w)) w))).
Proof.
  unfold with_preload, load_logged_in_user, login_required, bind,
    session_get, select_by_id, g_set_user, g_get_user.
  split; [|split].
  - intros ->. reflexivity.
  - intros user_id -> ->. reflexivity.
  - intros user_id user -> ->. reflexivity.
Qed.

(** ** The blueprint as a state machine *)

Lemma register_session_rows (salt : string) (req : request) (w : world) :
  session (snd (register salt req w)) = session w
  /\ exists added,
       rows (db (snd (register salt req w))) = (rows (db w) ++ added)%list.
Proof.
  assert (rows (db w) = (rows (db w) ++ [])%list) as Hnil
    by now rewrite app_nil_r.
  unfold register, bind, form_getitem.
  destruct (String.eqb (method req) "POST"); [|simpl; eauto].
  destruct (form req !! "username") as [username|]; [|simpl; eauto].
  destruct (form req !! "password") as [password|]; [|simpl; eauto].
  simpl.
  destruct (py_not username); [simpl; eauto|].
  destruct (py_not password); [simpl; eauto|].
  unfold select_id_by_username.
  destruct (user_by_username username (db w)) eqn:Hfound; [simpl; eauto|].
  simpl. unfold insert_user. simpl.
  apply existsb_by_username in Hfound. rewrite Hfound. simpl. eauto.
Qed.

Lemma register_world_ok (salt : string) (req : request) (w : world) :
  world_ok w -> world_ok (snd (register salt req w)).
Proof.
  intros [Hstore Hsession]. split; [now apply register_store_ok|].
  destruct (register_session_rows salt req w) as (Hs & added & Hrows).
  intros user_id Hid. rewrite Hs in Hid.
  destruct (Hsession user_id Hid) as (user & Hin & Hrow).
  exists user. split; [|exact Hrow]. rewrite Hrows. apply in_or_app. now left.
Qed.

Lemma login_world_ok (req : request) (w : world) :
  world_ok w -> world_ok (snd (login req w)).
Proof.
  intros [Hstore Hsession]. unfold login, bind, form_getitem.
  destruct (String.eqb (method req) "POST"); [|now split].
  destruct (form req !! "username") as [username|]; [|now split].
  destruct (form req !! "password") as [password|]; [|now split].
  simpl. unfold select_by_username.
  destruct (user_by_username username (db w)) as [user|] eqn:Hfound;
    [|now split].
  destruct (check_password_hash (row_password user) password); [|now split].
  simpl. split; [exact Hstore|].
  intros user_id Hid. simpl in Hid. rewrite lookup_insert_eq in Hid.
  injection Hid as <-. exists user. split; [|reflexivity].
  now apply user_by_username_some in Hfound.
Qed.

Lemma logout_world_ok (w : world) : world_ok w -> world_ok (snd (logout w)).
Proof.
  intros [Hstore _]. split; [exact Hstore|].
  intros user_id Hid. simpl in Hid. rewrite lookup_empty in Hid. discriminate.
Qed.

Lemma preload_world_ok (w : world) :
  world_ok w -> world_ok (snd (load_logged_in_user w)).
Proof.
  intros Hok. unfold load_logged_in_user, bind, session_get.
  destruct (session w !! "user_id"); exact Hok.
Qed.

Lemma with_preload_snd {A : Type} (view : M A) (w : world) :
  snd (with_preload view w) = snd (view (snd (load_logged_in_user w))).
Proof.
  unfold with_preload, load_logged_in_user, bind, session_get.
  destruct (session w !! "user_id"); reflexivity.
Qed.

Lemma serve_world_ok (r : route) (w : world) :
  world_ok w -> world_ok (snd (serve r w)).
Proof.
  intros Hok. unfold serve. rewrite with_preload_snd.
  apply preload_world_ok in Hok.
  destruct r as [salt req|req|];
    [now apply register_world_ok|now apply login_world_ok
    |now apply logout_world_ok].
Qed.

(** X13.  From a world whose table is within the schema and whose session, if it
    names a user, names a row of the table, every history of requests to the
    blueprint leads to such a world again.  Since no view removes a row, the
    session of such a world is never stale: whenever it holds a [user_id],
    the preload resolves [g.user] to the row with that id. *)
Theorem blueprint_keeps_world_ok (history : list route) (w : world) :
  store_ok (db w) ->
  session_ok w ->
  let w' := serve_all history w in
  store_ok (db w')
  /\ session_ok w'
  /\ (forall user_id,
        session w' !! "user_id" = Some user_id ->
        exists user,
          In user (rows (db w'))
          /\ row_id user = user_id
          /\ g_user (snd (load_logged_in_user w')) = Some (Some user)).
Proof.
  intros Hstore Hsession.
  assert (world_ok w) as Hok by now split. clear Hstore Hsession.
  revert w Hok. induction history as [|r history IH]; intros w Hok; simpl.
  - destruct Hok as [Hstore Hsession]. split; [exact Hstore|].
    split; [exact Hsession|].
    intros user_id Hid. destruct (Hsession user_id Hid) as (user & Hin & Hrow).
    exists user. split; [exact Hin|]. split; [exact Hrow|].
    unfold load_logged_in_user, bind, session_get, select_by_id.
    rewrite Hid. simpl.
    now rewrite (user_by_id_unique user_id (db w) user (proj1 Hstore) Hin Hrow).
  - apply IH. now apply serve_world_ok.
Qed.

Lemma appends_committed_refl (w : world) : appends_committed w w.
Proof. split; [exists []; now rewrite app_nil_r|auto]. Qed.

Lemma appends_committed_same (w w' : world) :
  same_table (db w) (db w') -> appends_committed w w'.
Proof.
  intros (Hrows & Hdurable & _). split.
  - exists []. now rewrite app_nil_r.
  - intros H. now rewrite Hrows, Hdurable.
Qed.

Lemma appends_committed_trans (w1 w2 w3 : world) :
  appends_committed w1 w2 -> appends_committed w2 w3 ->
  appends_committed w1 w3.
Proof.
  intros [[a1 H1] D1] [[a2 H2] D2]. split; [|auto].
  exists (a1 ++ a2)%list. now rewrite H2, H1, app_assoc.
Qed.

Lemma register_appends_committed (salt : string) (req : request) (w : world) :
  appends_committed w (snd (register salt req w)).
Proof.
  unfold register, bind, form_getitem.
  destruct (String.eqb (method req) "POST"); [|apply appends_committed_refl].
  destruct (form req !! "username") as [username|];
    [|apply appends_committed_refl].
  destruct (form req !! "password") as [password|];
    [|apply appends_committed_refl].
  simpl.
  destruct (py_not username); [now apply appends_committed_same|].
  destruct (py_not password); [now apply appends_committed_same|].
  unfold select_id_by_username.
  destruct (user_by_username username (db w)) eqn:Hfound;
    [now apply appends_committed_same|].
  simpl. unfold insert_user. simpl.
  apply existsb_by_username in Hfound. rewrite Hfound. simpl.
  split; simpl; eauto.
Qed.

Lemma login_same_table (req : request) (w : world) :
  same_table (db w) (db (snd (login req w))).
Proof.
  unfold login, bind, form_getitem, same_table.
  destruct (String.eqb (method req) "POST"); [|simpl; auto].
  destruct (form req !! "username") as [username|]; [|simpl; auto].
  destruct (form req !! "password") as [password|]; [|simpl; auto].
  simpl. unfold select_by_username.
  destruct (user_by_username username (db w)) as [user|]; [|simpl; auto].
  destruct (check_password_hash (row_password user) password); simpl; auto.
Qed.

Lemma preload_same_table (w : world) :
  same_table (db w) (db (snd (load_logged_in_user w))).
Proof.
  unfold load_logged_in_user, bind, session_get, same_table.
  destruct (session w !! "user_id"); simpl; auto.
Qed.

Lemma serve_appends_committed (r : route) (w : world) :
  appends_committed w (snd (serve r w)).
Proof.
  unfold serve. rewrite with_preload_snd.
  eapply appends_committed_trans;
    [apply appends_committed_same, preload_same_table|].
  destruct r as [salt req|req|].
  - apply register_appends_committed.
  - apply appends_committed_same, login_same_table.
  - apply appends_committed_same. unfold same_table. simpl. auto.
Qed.

(** X14.  No view updates or deletes a row, and every insert is committed before
    its request ends: after any history of requests the table is the table
    before with rows appended, and if everything was committed at the start,
    everything is committed at the end. *)
Theorem history_appends_committed (history : list route) (w : world) :
  durable (db w) = rows (db w) ->
  let w' := serve_all history w in
  (exists added, rows (db w') = (rows (db w) ++ added)%list)
  /\ durable (db w') = rows (db w').
Proof.
  intros Hdurable. simpl.
  assert (appends_committed w (serve_all history w)) as [Hrows Hcommitted].
  { clear Hdurable. revert w.
    induction history as [|r history IH]; intros w; simpl.
    - apply appends_committed_refl.
    - eapply appends_committed_trans; [apply serve_appends_committed|apply IH]. }
  split; [exact Hrows|exact (Hcommitted Hdurable)].
Qed.

End Auth.

(** ** The theorems at the requests of tests/test_auth.py *)

Lemma register_validation_order_witness :
  register blueprint_url_for stub_generate_password_hash "s4lt"
           (post "" "") anonymous_world =
    (Return (RenderTemplate "auth/register.html"),
     add_flash "Username is required." anonymous_world)
  /\ register blueprint_url_for stub_generate_password_hash "s4lt"
              (post "a" "") anonymous_world =
       (Return (RenderTemplate "auth/register.html"),
        add_flash "Password is required." anonymous_world)
  /\ register blueprint_url_for stub_generate_password_hash "s4lt"
              (post "test" "test") anonymous_world =
       (Return (RenderTemplate "auth/register.html"),
        add_flash "User test is already registered."
          (set_db (log (SelectIdByUsername "test") test_connection)
                  anonymous_world)).
Proof.
  split; [|split].
  - apply (register_validation_order blueprint_url_for
             stub_generate_password_hash "s4lt" (post "" "") anonymous_world
             "" ""); reflexivity.
  - apply (register_validation_order blueprint_url_for
             stub_generate_password_hash "s4lt" (post "a" "") anonymous_world
             "a" ""); try reflexivity. discriminate.
  - apply (register_validation_order blueprint_url_for
             stub_generate_password_hash "s4lt" (post "test" "test")
             anonymous_world "test" "test"); try reflexivity; try discriminate.
    exists test_user. split; [left|]; reflexivity.
Defined.

Lemma register_inserts_hashed_row_witness :
  register blueprint_url_for stub_generate_password_hash "s4lt"
           (post "a" "a") logged_in_world =
    (Return (Redirect "/auth/login"),
     World (Connection [test_user; UserRow 2 "a" "s4lt$a"]
                       [test_user; UserRow 2 "a" "s4lt$a"] 3
                       [SelectIdByUsername "a"; InsertUser "a" "s4lt$a"; Commit])
           {["user_id" := 1]} None []).
Proof.
  apply (register_inserts_hashed_row blueprint_url_for
           stub_generate_password_hash "s4lt" (post "a" "a") logged_in_world
           "a" "a"); try reflexivity; try discriminate.
  intros r [<-|[]]. discriminate.
Defined.

Lemma login_rejects_witness :
  login blueprint_url_for stub_check_password_hash
        (post "a" "test") logged_in_world =
    (Return (RenderTemplate "auth/login.html"),
     add_flash "Incorrect username."
       (set_db (log (SelectByUsername "a") test_connection) logged_in_world))
  /\ login blueprint_url_for stub_check_password_hash
           (post "test" "a") logged_in_world =
       (Return (RenderTemplate "auth/login.html"),
        add_flash "Incorrect password."
          (set_db (log (SelectByUsername "test") test_connection)
                  logged_in_world)).
Proof.
  split.
  - apply (login_rejects blueprint_url_for stub_check_password_hash
             (post "a" "test") logged_in_world "a" "test");
      try reflexivity.
    intros r [<-|[]]. discriminate.
  - apply (proj2 (login_rejects blueprint_url_for stub_check_password_hash
                    (post "test" "a") logged_in_world "test" "a"
                    eq_refl eq_refl eq_refl) test_user); reflexivity.
Defined.

Lemma login_success_witness :
  login blueprint_url_for stub_check_password_hash
        (post "test" "test") (add_flash "pending" stale_world) =
    (Return (Redirect "/"),
     World (log (SelectByUsername "test") test_connection)
           {["user_id" := 1]} None []).
Proof.
  apply (login_success blueprint_url_for stub_check_password_hash
           (post "test" "test") (add_flash "pending" stale_world)
           "test" "test" test_user);
    reflexivity.
Defined.

Lemma missing_form_key_raises_witness :
  exists key,
    (key = "username" \/ key = "password")
    /\ form (Request "POST" {["username" := "a"]}) !! key = None
    /\ register blueprint_url_for stub_generate_password_hash "s4lt"
               (Request "POST" {["username" := "a"]}) logged_in_world =
         (Raise (BadRequestKeyError key), logged_in_world)
    /\ login blueprint_url_for stub_check_password_hash
            (Request "POST" {["username" := "a"]}) logged_in_world =
         (Raise (BadRequestKeyError key), logged_in_world).
Proof.
  apply (missing_form_key_raises blueprint_url_for
           stub_generate_password_hash stub_check_password_hash "s4lt"
           (Request "POST" {["username" := "a"]}) logged_in_world).
  - reflexivity.
  - right. reflexivity.
Defined.

Lemma load_logged_in_user_identity_witness :
  load_logged_in_user anonymous_world =
    (Return tt, set_g_user None anonymous_world)
  /\ load_logged_in_user stale_world =
       (Return tt,
        set_g_user None
          (set_db (log (SelectById 7) test_connection) stale_world))
  /\ load_logged_in_user logged_in_world =
       (Return tt,
        set_g_user (Some test_user)
          (set_db (log (SelectById 1) test_connection) logged_in_world)).
Proof.
  split; [|split].
  - apply (load_logged_in_user_identity anonymous_world). reflexivity.
  - apply (load_logged_in_user_identity stale_world); [reflexivity|].
    intros r [<-|[]]. discriminate.
  - apply (load_logged_in_user_identity logged_in_world);
      [reflexivity|apply NoDup_singleton|left; reflexivity|reflexivity].
Defined.

Lemma load_logged_in_user_assigns_witness :
  (g_user (snd (load_logged_in_user anonymous_world)) = Some None
   /\ db (snd (load_logged_in_user anonymous_world)) = db anonymous_world)
  /\ In test_user (rows (db logged_in_world)).
Proof.
  split.
  - apply (load_logged_in_user_assigns anonymous_world). reflexivity.
  - apply (load_logged_in_user_assigns logged_in_world). reflexivity.
Defined.

Lemma logout_clears_session_witness :
  session anonymous_world = ∅
  /\ flashes anonymous_world = []
  /\ logout blueprint_url_for anonymous_world =
       (Return (Redirect "/"), anonymous_world)
  /\ logout blueprint_url_for (add_flash "pending" logged_in_world) =
       (Return (Redirect "/"), anonymous_world).
Proof.
  split; [reflexivity|]. split; [reflexivity|]. split.
  - apply (proj1 (proj2 (logout_clears_session blueprint_url_for
                           anonymous_world))); reflexivity.
  - apply (proj1 (logout_clears_session blueprint_url_for
                    (add_flash "pending" logged_in_world))).
Defined.

Lemma login_required_guard_witness :
  login_required blueprint_url_for update_view 1
                 (set_g_user None anonymous_world) =
    (Return (Redirect "/auth/login"), set_g_user None anonymous_world)
  /\ login_required blueprint_url_for update_view 1
                    (set_g_user (Some test_user) logged_in_world) =
       update_view 1 (set_g_user (Some test_user) logged_in_world).
Proof.
  split.
  - apply (login_required_guard blueprint_url_for update_view 1
             (set_g_user None anonymous_world)). reflexivity.
  - apply (proj2 (login_required_guard blueprint_url_for update_view 1
                    (set_g_user (Some test_user) logged_in_world)) test_user).
    reflexivity.
Defined.

Lemma non_post_renders_form_witness :
  method get <> "POST"
  /\ register blueprint_url_for stub_generate_password_hash "s4lt" get
              logged_in_world =
       (Return (RenderTemplate "auth/register.html"), logged_in_world)
  /\ login blueprint_url_for stub_check_password_hash get logged_in_world =
       (Return (RenderTemplate "auth/login.html"), logged_in_world).
Proof.
  split; [discriminate|].
  apply (non_post_renders_form blueprint_url_for stub_generate_password_hash
           stub_check_password_hash "s4lt" get logged_in_world).
  discriminate.
Defined.

Lemma register_twice_witness :
  rows (db (snd (register blueprint_url_for stub_generate_password_hash
                          "p3pper" (post "a" "a")
                          (snd (register blueprint_url_for
                                         stub_generate_password_hash "s4lt"
                                         (post "a" "a") anonymous_world))))) =
    [test_user; UserRow 2 "a" "s4lt$a"].
Proof.
  apply (register_twice blueprint_url_for stub_generate_password_hash
           "s4lt" "p3pper" (post "a" "a") anonymous_world "a" "a");
    try reflexivity; discriminate.
Defined.

Lemma guarded_request_witness :
  with_preload (login_required blueprint_url_for update_view 1)
               anonymous_world =
    (Return (Redirect "/auth/login"), set_g_user None anonymous_world)
  /\ with_preload (login_required blueprint_url_for update_view 1)
                  stale_world =
       (Return (Redirect "/auth/login"),
        set_g_user None
          (set_db (log (SelectById 7) test_connection) stale_world))
  /\ with_preload (login_required blueprint_url_for update_view 1)
                  logged_in_world =
       update_view 1
         (set_g_user (Some test_user)
            (set_db (log (SelectById 1) test_connection) logged_in_world)).
Proof.
  split; [|split].
  - apply (proj1 (guarded_request blueprint_url_for update_view 1
                    anonymous_world)).
    reflexivity.
  - apply (proj1 (proj2 (guarded_request blueprint_url_for update_view 1
                           stale_world)) 7); reflexivity.
  - apply (proj2 (proj2 (guarded_request blueprint_url_for update_view 1
                           logged_in_world)) 1 test_user); reflexivity.
Defined.

Lemma register_then_login_witness :
  let w1 := snd (register blueprint_url_for stub_generate_password_hash
                          "s4lt" (post "a" "a") anonymous_world) in
  fst (login blueprint_url_for stub_check_password_hash (post "a" "a") w1) =
    Return (Redirect "/")
  /\ session (snd (login blueprint_url_for stub_check_password_hash
                         (post "a" "a") w1)) = {["user_id" := 2]}.
Proof.
  apply (register_then_login blueprint_url_for stub_generate_password_hash
           stub_check_password_hash "s4lt" (post "a" "a") anonymous_world
           "a" "a"); try reflexivity; discriminate.
Defined.

Lemma login_then_preload_witness :
  g_user (snd (load_logged_in_user
                 (snd (login blueprint_url_for stub_check_password_hash
                             (post "test" "test") stale_world)))) =
    Some (Some test_user).
Proof.
  apply (login_then_preload blueprint_url_for stub_check_password_hash
           (post "test" "test") stale_world "test" "test" test_user);
    try reflexivity.
  apply NoDup_singleton.
Defined.

Lemma blueprint_keeps_world_ok_witness :
  let w' := serve_all blueprint_url_for stub_generate_password_hash
                      stub_check_password_hash
                      [AuthRegister "s4lt" (post "a" "a");
                       AuthLogin (post "a" "a");
                       AuthLogout;
                       AuthLogin (post "test" "test")]
                      anonymous_world in
  store_ok (db w')
  /\ session_ok w'
  /\ (forall user_id,
        session w' !! "user_id" = Some user_id ->
        exists user,
          In user (rows (db w'))
          /\ row_id user = user_id
          /\ g_user (snd (load_logged_in_user w')) = Some (Some user)).
Proof.
  apply (blueprint_keeps_world_ok blueprint_url_for
           stub_generate_password_hash stub_check_password_hash).
  - unfold store_ok. simpl. split; [apply NoDup_singleton|].
    split; [apply NoDup_singleton|].
    constructor; [simpl; lia|constructor].
  - intros user_id Hid. simpl in Hid. rewrite lookup_empty in Hid.
    discriminate.
Defined.

Lemma history_appends_committed_witness :
  let w' := serve_all blueprint_url_for stub_generate_password_hash
                      stub_check_password_hash
                      [AuthRegister "s4lt" (post "a" "a");
                       AuthRegister "p3pper" (post "a" "b");
                       AuthLogin (post "a" "a")]
                      logged_in_world in
  (exists added, rows (db w') = (rows (db logged_in_world) ++ added)%list)
  /\ durable (db w') = rows (db w').
Proof.
  apply (history_appends_committed blueprint_url_for
           stub_generate_password_hash stub_check_password_hash).
  reflexivity.
Defined.
